(** * Startup orchestrator of the ZAP desktop tool

    A shallow embedding of [src-electron/main-process/electron-main.js]:
    the promise chains that bring up the store, load schema, metadata and
    templates, the four start-up workflows, the store-reset rotation and
    the application lifecycle handlers.

    The external collaborators (database API, loaders, generator, HTTP
    server, window manager, logging) are not part of this file of the
    repository.  Each of them is represented by what the orchestrator can
    observe of it: the value or the error its promise settles with, given
    by a [World], and an event in the run's trace. *)

From Stdlib Require Import ZArith DecimalString DecimalPos DecimalZ.
From stdpp Require Import gmap strings list fin_maps.

Open Scope string_scope.

(** ** JavaScript values *)

(** The values that reach the orchestrator through [argv] and the [args]
    module: absent options are [undefined], flags are booleans, paths are
    strings, ports are integers. *)
Inductive JsVal : Type :=
| JUndefined
| JNull
| JBool (b : bool)
| JNum (n : Z)
| JStr (s : string).

#[global] Instance JsVal_eq_dec : EqDecision JsVal.
Proof. solve_decision. Defined.

(** [ToBoolean]: what [v ? a : b], [if (v)] and [!v] test. *)
Definition truthy (v : JsVal) : bool :=
  match v with
  | JUndefined | JNull => false
  | JBool b => b
  | JNum n => negb (n =? 0)%Z
  | JStr s => negb (String.eqb s "")
  end.

(** [v != null]: loose inequality, false for [null] and [undefined] only. *)
Definition not_nullish (v : JsVal) : bool :=
  match v with
  | JUndefined | JNull => false
  | _ => true
  end.

(** [ToString], as applied by a template literal [`${v}`]. *)
Definition toString (v : JsVal) : string :=
  match v with
  | JUndefined => "undefined"
  | JNull => "null"
  | JBool true => "true"
  | JBool false => "false"
  | JNum n => NilZero.string_of_int (Z.to_int n)
  | JStr s => s
  end.

(** [Array.prototype.includes]: membership by SameValueZero, which on
    these values is equality. *)
Definition includes (l : list JsVal) (x : JsVal) : bool :=
  bool_decide (x ∈ l).

(** ** Data of the orchestrator *)

(** A thrown value or a promise's rejection reason. *)
Definition Err : Type := string.

(** The store handle: opaque to the orchestrator. *)
Definition Db : Type := nat.

(** The context object the loaders resolve with; the orchestrator reads
    only its [db] field. *)
Record Ctx : Type := { db : Db }.

(** The parsed command line, as returned by
    [args.processCommandLineArguments]: the positional tokens [argv._] and
    the options the ready handler reads. *)
Record Argv : Type := {
  positional : list JsVal;
  clearDb : JsVal;
  output : JsVal;
  template : JsVal;
  zclProperties : JsVal;
  noUi : JsVal;
  showUrl : JsVal;
  uiMode : JsVal
}.

(** Calls to promise-returning collaborators. *)
Inductive Call : Type :=
| initDatabase (path : string)
| loadSchema (d : Db) (schemaFile zapVersion : string)
| loadZcl (d : Db) (propertiesFile : JsVal)
| loadTemplates (d : Db) (templateJson : JsVal)
| initHttpServer (d : Db) (port : JsVal)
| setHandlebarTemplateDirForCli (dir : JsVal)
| generateCodeViaCli (generationDir : JsVal)
| runSdkGeneration (d : Db) (generationDir templateDir : JsVal)
| closeDatabase (d : option Db).

Inductive LogArg : Type :=
| LText (s : string)
| LError (e : Err)
| LArgv (a : Argv).

(** What a run does that is visible outside the orchestrator, in order. *)
Inductive Event : Type :=
| ECall (c : Call)
| EResolved (c : Call)
| ERejected (c : Call) (e : Err)
| ESetMainDatabase (d : Db)
| ELogInitLogFile
| ELogInitStdout
| ESetDevelopmentEnv
| ESetProductionEnv
| ELogInfo (m : LogArg)
| ELogWarning (m : LogArg)
| ELogError (m : LogArg)
| EConsoleLog (line : string)
| EAppQuit
| EDockHide
| EInitializeElectronUi (port : JsVal) (mode : JsVal)
| EWindowCreateIfNotThere (port : JsVal)
| EUnlink (path : string)
| ERename (src dst : string).

#[global] Instance Ctx_eq_dec : EqDecision Ctx.
Proof. solve_decision. Defined.
#[global] Instance Argv_eq_dec : EqDecision Argv.
Proof. solve_decision. Defined.
#[global] Instance Call_eq_dec : EqDecision Call.
Proof. solve_decision. Defined.
#[global] Instance LogArg_eq_dec : EqDecision LogArg.
Proof. solve_decision. Defined.
#[global] Instance Event_eq_dec : EqDecision Event.
Proof. solve_decision. Defined.

(** The surroundings of one process: what every collaborator's promise
    settles with ([inl] a rejection, [inr] the resolved value), and the
    configuration read from [env], [args], [process] and [app]. *)
Record World : Type := {
  initDatabase_settles : string → Err + Db;
  loadSchema_settles : Db → string → string → Err + Db;
  loadZcl_settles : Db → JsVal → Err + Ctx;
  loadTemplates_settles : Db → JsVal → Err + Ctx;
  (* resolves once the server listens; the value is the port it bound *)
  initHttpServer_settles : Db → JsVal → Err + Z;
  setHandlebarTemplateDirForCli_settles : JsVal → Err + JsVal;
  generateCodeViaCli_settles : JsVal → Err + unit;
  runSdkGeneration_settles : Db → JsVal → JsVal → Err + unit;
  closeDatabase_settles : option Db → Err + unit;
  sqliteFile : string;
  schemaFile : string;
  zapVersion : string;
  zclPropertiesFile : JsVal;
  genTemplateJsonFile : JsVal;
  httpPort : JsVal;
  platform : string;
  dock : bool;
  DEV : JsVal
}.

(** The mutable state the orchestrator shares with its collaborators. *)
Record St : Type := {
  (* regular files on disk: path to contents *)
  files : gmap string string;
  (* env.setMainDatabase / env.mainDatabase *)
  mainDatabase : option Db;
  (* the port of the HTTP server, once it listens *)
  serverPort : option Z;
  (* the port the open window points at, if a window is open *)
  window : option JsVal
}.

(** ** Promises

    A settled promise: the events of the run that settled it, the state it
    left, and its resolution or rejection.  Synchronous code uses the same
    type, a thrown exception being a rejection.  Every collaborator's
    promise is taken to settle. *)
Inductive Outcome (A : Type) : Type :=
| Resolved (a : A)
| Rejected (e : Err).
Arguments Resolved {A} a.
Arguments Rejected {A} e.

Record Run (A : Type) : Type := {
  events : list Event;
  final : St;
  outcome : Outcome A
}.
Arguments Build_Run {A} _ _ _.
Arguments events {A} _.
Arguments final {A} _.
Arguments outcome {A} _.

Definition Promise (A : Type) : Type := St → Run A.

Definition resolve {A} (a : A) : Promise A :=
  λ s, Build_Run [] s (Resolved a).

Definition throw {A} (e : Err) : Promise A :=
  λ s, Build_Run [] s (Rejected e).

(** [p.then(f)] *)
Definition then_ {A B} (p : Promise A) (f : A → Promise B) : Promise B :=
  λ s,
    match p s with
    | Build_Run t s' (Resolved a) =>
        match f a s' with
        | Build_Run t' s'' o => Build_Run (t ++ t') s'' o
        end
    | Build_Run t s' (Rejected e) => Build_Run t s' (Rejected e)
    end.

(** [p.catch(h)] *)
Definition catch_ {A} (p : Promise A) (h : Err → Promise A) : Promise A :=
  λ s,
    match p s with
    | Build_Run t s' (Resolved a) => Build_Run t s' (Resolved a)
    | Build_Run t s' (Rejected e) =>
        match h e s' with
        | Build_Run t' s'' o => Build_Run (t ++ t') s'' o
        end
    end.

#[global] Instance Promise_ret : MRet Promise := @resolve.
#[global] Instance Promise_bind : MBind Promise := λ A B f p, then_ p f.

Definition emit (e : Event) : Promise unit :=
  λ s, Build_Run [e] s (Resolved tt).

Definition get : Promise St :=
  λ s, Build_Run [] s (Resolved s).

Definition put (s : St) : Promise unit :=
  λ _, Build_Run [] s (Resolved tt).

(** A call to a collaborator and the settling of the promise it returns. *)
Definition await {A} (c : Call) (r : Err + A) : Promise A :=
  match r with
  | inr a => _ ← emit (ECall c); _ ← emit (EResolved c); resolve a
  | inl e => _ ← emit (ECall c); _ ← emit (ERejected c e); throw e
  end.

Notation "p >>then f" := (then_ p f) (at level 61, left associativity).
Notation "p >>catch h" := (catch_ p h) (at level 61, left associativity).

Definition set_files (fs : gmap string string) (s : St) : St :=
  {| files := fs; mainDatabase := mainDatabase s;
     serverPort := serverPort s; window := window s |}.

Definition set_mainDatabase (d : option Db) (s : St) : St :=
  {| files := files s; mainDatabase := d;
     serverPort := serverPort s; window := window s |}.

Definition set_serverPort (p : option Z) (s : St) : St :=
  {| files := files s; mainDatabase := mainDatabase s;
     serverPort := p; window := window s |}.

Definition set_window (v : option JsVal) (s : St) : St :=
  {| files := files s; mainDatabase := mainDatabase s;
     serverPort := serverPort s; window := v |}.

(** ** The [fs] functions the orchestrator calls, on regular files

    The disk is a map from the paths of regular files to their contents.
    The one failure represented is a missing file ([ENOENT]); the other
    ways the real calls can throw (a directory at the path, permissions, a
    busy file) have no counterpart here, so what is proved of the rotation
    is proved of the runs in which no such failure occurs. *)

Definition existsSync (path : string) : Promise bool :=
  s ← get; resolve (bool_decide (is_Some (files s !! path))).

Definition unlinkSync (path : string) : Promise unit :=
  s ← get;
  match files s !! path with
  | Some _ =>
      _ ← emit (EUnlink path); put (set_files (delete path (files s)) s)
  | None => throw "ENOENT"
  end.

Definition renameSync (src dst : string) : Promise unit :=
  s ← get;
  match files s !! src with
  | Some c =>
      _ ← emit (ERename src dst);
      put (set_files (<[dst := c]> (delete src (files s))) s)
  | None => throw "ENOENT"
  end.

Section Orchestrator.

Variable w : World.

(** *** Collaborators, as seen from the orchestrator

    A collaborator's call is seen through its events and what its promise
    settles with.  What it does to the disk (the store open creating the
    store file, the generators writing their output) is not represented:
    [files] records the orchestrator's own [fs] calls only. *)

Definition setMainDatabase (d : Db) : Promise unit :=
  s ← get; _ ← put (set_mainDatabase (Some d) s); emit (ESetMainDatabase d).

Definition dbApi_initDatabase (path : string) : Promise Db :=
  await (initDatabase path) (initDatabase_settles w path).

Definition dbApi_loadSchema (d : Db) (file version : string) : Promise Db :=
  await (loadSchema d file version) (loadSchema_settles w d file version).

Definition dbApi_closeDatabase (d : option Db) : Promise unit :=
  await (closeDatabase d) (closeDatabase_settles w d).

Definition zclLoader_loadZcl (d : Db) (propertiesFile : JsVal) : Promise Ctx :=
  await (loadZcl d propertiesFile) (loadZcl_settles w d propertiesFile).

Definition generatorEngine_loadTemplates (d : Db) (json : JsVal)
  : Promise Ctx :=
  await (loadTemplates d json) (loadTemplates_settles w d json).

Definition menu_setHandlebarTemplateDirForCli (dir : JsVal) : Promise JsVal :=
  await (setHandlebarTemplateDirForCli dir)
        (setHandlebarTemplateDirForCli_settles w dir).

Definition menu_generateCodeViaCli (dir : JsVal) : Promise unit :=
  await (generateCodeViaCli dir) (generateCodeViaCli_settles w dir).

Definition sdkGen_runSdkGeneration (d : Db) (generationDir templateDir : JsVal)
  : Promise unit :=
  await (runSdkGeneration d generationDir templateDir)
        (runSdkGeneration_settles w d generationDir templateDir).

(** Modelled from the spec: [httpServer.initHttpServer] and
    [httpServer.httpServerPort] of [server/http-server.js], which is not
    among the sources.  The spec gives
    [serverStart(handle, port) -> Server{boundPort}] and calls the value
    read back "the server's actual bound port": starting the server
    records the port it bound, and [httpServerPort()] returns it
    ([undefined] while no server listens). *)
Definition httpServer_initHttpServer (d : Db) (port : JsVal) : Promise unit :=
  await (initHttpServer d port) (initHttpServer_settles w d port)
  >>then (λ bound, s ← get; put (set_serverPort (Some bound) s)).

Definition httpServer_httpServerPort : Promise JsVal :=
  s ← get;
  resolve (match serverPort s with Some p => JNum p | None => JUndefined end).

(** Modelled from the spec: [windowJs.initializeElectronUi] and
    [windowJs.windowCreateIfNotThere] of [main-process/window.js], which
    is not among the sources.  The spec gives
    [windowOpen(boundPort, {uiMode}) -> void] and "re-show a window
    attached to" a port when no window is present: a window is opened on
    the port it is given, the second function only when none is open. *)
Definition windowJs_initializeElectronUi (port mode : JsVal) : Promise unit :=
  _ ← emit (EInitializeElectronUi port mode);
  s ← get; put (set_window (Some port) s).

Definition windowJs_windowCreateIfNotThere (port : JsVal) : Promise unit :=
  _ ← emit (EWindowCreateIfNotThere port);
  s ← get;
  match window s with
  | Some _ => resolve tt
  | None => put (set_window (Some port) s)
  end.

(** *** electron-main.js *)

(** Module initialisation, lines 33-39. *)
Definition module_init : Promise unit :=
  _ ← emit ELogInitLogFile;
  if truthy (DEV w) then emit ESetDevelopmentEnv else emit ESetProductionEnv.

Definition attachToDb (d : Db) : Promise Db :=
  _ ← setMainDatabase d; resolve d.

Definition startSelfCheck : Promise unit :=
  _ ← emit ELogInitStdout;
  _ ← emit (EConsoleLog "Starting self-check");
  dbApi_initDatabase (sqliteFile w)
  >>then (λ d, attachToDb d)
  >>then (λ d, dbApi_loadSchema d (schemaFile w) (zapVersion w))
  >>then (λ d, zclLoader_loadZcl d (zclPropertiesFile w))
  >>then (λ ctx, generatorEngine_loadTemplates (db ctx) (genTemplateJsonFile w))
  >>then (λ ctx, _ ← emit (EConsoleLog "Self-check done!"); emit EAppQuit)
  >>catch (λ err, _ ← emit (ELogError (LError err)); throw err).

Definition url_line (port : JsVal) : string :=
  "url: http://localhost:" +:+ toString port +:+ "/index.html".

Definition startNormal (uiEnabled : bool) (showUrl uiMode : JsVal)
  : Promise unit :=
  dbApi_initDatabase (sqliteFile w)
  >>then (λ d, attachToDb d)
  >>then (λ d, dbApi_loadSchema d (schemaFile w) (zapVersion w))
  >>then (λ d, zclLoader_loadZcl d (zclPropertiesFile w))
  >>then (λ ctx, generatorEngine_loadTemplates (db ctx) (genTemplateJsonFile w))
  >>then (λ ctx, httpServer_initHttpServer (db ctx) (httpPort w))
  >>then (λ _,
      if uiEnabled then
        port ← httpServer_httpServerPort;
        windowJs_initializeElectronUi port uiMode
      else
        _ ← (if dock w then emit EDockHide else resolve tt);
        if truthy showUrl then
          port ← httpServer_httpServerPort;
          emit (EConsoleLog (url_line port))
        else resolve tt)
  >>catch (λ err, _ ← emit (ELogError (LError err)); throw err).

Definition setGenerationDirAndTemplateDir (generationDir handlebarTemplateDir : JsVal)
  : Promise unit :=
  if truthy handlebarTemplateDir then
    menu_setHandlebarTemplateDirForCli handlebarTemplateDir
    >>then (λ _, menu_generateCodeViaCli generationDir)
  else menu_generateCodeViaCli generationDir.

Definition applyGenerationSettings
    (generationDir handlebarTemplateDir zclPropertiesFilePath : JsVal)
  : Promise unit :=
  _ ← emit (ELogInfo (LText "Start Generation..."));
  dbApi_initDatabase (sqliteFile w)
  >>then (λ d, attachToDb d)
  >>then (λ d, dbApi_loadSchema d (schemaFile w) (zapVersion w))
  >>then (λ d,
      zclLoader_loadZcl d
        (if truthy zclPropertiesFilePath then zclPropertiesFilePath
         else zclPropertiesFile w))
  >>then (λ ctx, setGenerationDirAndTemplateDir generationDir handlebarTemplateDir)
  >>then (λ res, emit EAppQuit).

Definition startSdkGeneration
    (generationDir handlebarTemplateDir zclPropertiesFilePath : JsVal)
  : Promise unit :=
  _ ← emit (ELogInfo (LText "Start SDK generation..."));
  dbApi_initDatabase (sqliteFile w)
  >>then (λ d, attachToDb d)
  >>then (λ d, dbApi_loadSchema d (schemaFile w) (zapVersion w))
  >>then (λ d,
      zclLoader_loadZcl d
        (if truthy zclPropertiesFilePath then zclPropertiesFilePath
         else zclPropertiesFile w))
  >>then (λ ctx,
      sdkGen_runSdkGeneration (db ctx) generationDir handlebarTemplateDir)
  >>then (λ res, emit EAppQuit).

Definition clearDatabaseFile : Promise unit :=
  let path := sqliteFile w in
  let pathBak := path +:+ "~" in
  path_exists ← existsSync path;
  if path_exists : bool then
    bak_exists ← existsSync pathBak;
    _ ← (if bak_exists : bool then
           _ ← emit (ELogWarning
                       (LText ("Deleting old backup file: " +:+ pathBak)));
           unlinkSync pathBak
         else resolve tt);
    _ ← emit (ELogWarning
                (LText ("Database restart requested, moving file: "
                        +:+ path +:+ " to " +:+ pathBak)));
    renameSync path pathBak
  else resolve tt.

(** [app.on('ready', ...)]; [argv] is what
    [args.processCommandLineArguments(process.argv)] returned.  The chain
    the handler starts is run to its settlement. *)
Definition on_ready (argv : Argv) : Promise unit :=
  _ ← emit (ELogInfo (LArgv argv));
  _ ← (if not_nullish (clearDb argv) then clearDatabaseFile else resolve tt);
  if includes (positional argv) (JStr "selfCheck") then
    startSelfCheck
  else if includes (positional argv) (JStr "generate") then
    applyGenerationSettings (output argv) (template argv) (zclProperties argv)
  else if includes (positional argv) (JStr "sdkGen") then
    startSdkGeneration (output argv) (template argv) (zclProperties argv)
  else
    startNormal (negb (truthy (noUi argv))) (showUrl argv) (uiMode argv).

(** [app.on('window-all-closed', ...)] *)
Definition on_window_all_closed : Promise unit :=
  if bool_decide (platform w ≠ "darwin") then emit EAppQuit else resolve tt.

(** [app.on('activate', ...)] *)
Definition on_activate : Promise unit :=
  _ ← emit (ELogInfo (LText "Activate..."));
  windowJs_windowCreateIfNotThere (httpPort w).

(** [app.on('quit', ...)] *)
Definition on_quit : Promise unit :=
  (s ← get; dbApi_closeDatabase (mainDatabase s))
  >>then (λ _, emit (ELogInfo (LText "Database closed, shutting down."))).

End Orchestrator.

(** ** A handler's return

    An event handler runs synchronously to its end.  A promise-returning
    call made in it starts the collaborator and returns at once; a callback
    attached with [.then] is only registered, and runs in a later turn,
    after the promise has settled.  [Started] keeps apart what such a
    chain does before the handler returns from what follows the return. *)

Definition settle_with {A} (c : Call) (r : Err + A) : Promise A :=
  match r with
  | inr a => _ ← emit (EResolved c); resolve a
  | inl e => _ ← emit (ERejected c e); throw e
  end.

Record Started (A : Type) : Type := {
  before_return : list Event;
  after_return : Promise A
}.
Arguments Build_Started {A} _ _.
Arguments before_return {A} _.
Arguments after_return {A} _.

(** The call of a collaborator: started now, settled later. *)
Definition start {A} (c : Call) (r : Err + A) : Started A :=
  Build_Started [ECall c] (settle_with c r).

(** [p.then(f)] on a promise that is still pending. *)
Definition started_then {A B} (p : Started A) (f : A → Promise B) : Started B :=
  Build_Started (before_return p) (after_return p >>then f).

(** [app.on('quit', ...)], with the handler's return made explicit:
    [env.mainDatabase()] is read and [closeDatabase] called before the
    handler returns, the callback logging the shutdown line is left for
    later, and the handler returns nothing to wait on. *)
Definition on_quit_started (w : World) (s : St) : Started unit :=
  started_then
    (start (closeDatabase (mainDatabase s))
           (closeDatabase_settles w (mainDatabase s)))
    (λ _, emit (ELogInfo (LText "Database closed, shutting down."))).

(** ** Observations on a run's events *)

Definition count (p : Event → bool) (t : list Event) : nat :=
  length (List.filter p t).

(** Requests for process termination: [app.quit()]. *)
Definition is_quit (e : Event) : bool :=
  match e with EAppQuit => true | _ => false end.

(** Rejections of collaborators' promises. *)
Definition is_rejection (e : Event) : bool :=
  match e with ERejected _ _ => true | _ => false end.

Definition is_call (e : Event) : bool :=
  match e with ECall _ => true | _ => false end.

(** What went to [env.logError]. *)
Definition error_logs (t : list Event) : list LogArg :=
  omap (λ e, match e with ELogError m => Some m | _ => None end) t.

(** The lines written by [console.log]. *)
Definition stdout (t : list Event) : list string :=
  omap (λ e, match e with EConsoleLog l => Some l | _ => None end) t.

Definition is_console_log (line : string) (e : Event) : bool :=
  match e with EConsoleLog l => String.eqb l line | _ => false end.

(** The command classification of the specification, and the workflow the
    ready handler starts for each. *)
Inductive Command : Type := SelfCheck | Generate | SdkGen | Normal.

#[global] Instance Command_eq_dec : EqDecision Command.
Proof. solve_decision. Defined.

(** Follows the specification: first match by the fixed priority
    [selfCheck], [generate], [sdkGen], default. *)
Definition classify (argv : Argv) : Command :=
  if includes (positional argv) (JStr "selfCheck") then SelfCheck
  else if includes (positional argv) (JStr "generate") then Generate
  else if includes (positional argv) (JStr "sdkGen") then SdkGen
  else Normal.

Definition workflow (w : World) (c : Command) (argv : Argv) : Promise unit :=
  match c with
  | SelfCheck => startSelfCheck w
  | Generate =>
      applyGenerationSettings w (output argv) (template argv) (zclProperties argv)
  | SdkGen =>
      startSdkGeneration w (output argv) (template argv) (zclProperties argv)
  | Normal =>
      startNormal w (negb (truthy (noUi argv))) (showUrl argv) (uiMode argv)
  end.

(** The setup stages of the specification's pipeline. *)
Inductive Stage : Type :=
| StoreOpen | Register | SchemaLoad | MetadataLoad | TemplateLoad.

#[global] Instance Stage_eq_dec : EqDecision Stage.
Proof. solve_decision. Defined.

(** The event with which a stage starts. *)
Definition stage_of (e : Event) : option Stage :=
  match e with
  | ECall (initDatabase _) => Some StoreOpen
  | ESetMainDatabase _ => Some Register
  | ECall (loadSchema _ _ _) => Some SchemaLoad
  | ECall (loadZcl _ _) => Some MetadataLoad
  | ECall (loadTemplates _ _) => Some TemplateLoad
  | _ => None
  end.

Definition stages (t : list Event) : list Stage := omap stage_of t.

(** The mode-specific invocation of Generate and of SdkGen. *)
Definition is_generation_call (c : Call) : bool :=
  match c with
  | generateCodeViaCli _ | runSdkGeneration _ _ _ => true
  | _ => false
  end.

Definition full_pipeline : list Stage :=
  [StoreOpen; Register; SchemaLoad; MetadataLoad; TemplateLoad].

(** The stages each workflow's chain goes through when nothing rejects. *)
Definition pipeline_of (c : Command) : list Stage :=
  match c with
  | SelfCheck | Normal => full_pipeline
  | Generate | SdkGen => [StoreOpen; Register; SchemaLoad; MetadataLoad]
  end.

Definition is_stage (e : Event) : bool :=
  match stage_of e with Some _ => true | None => false end.

(** The mode-specific actions: the success marker and the termination
    request of the one-shot modes, the generator calls, the server start
    and what Normal mode does once the server listens. *)
Definition is_mode_action (e : Event) : bool :=
  match e with
  | ECall (initHttpServer _ _)
  | ECall (setHandlebarTemplateDirForCli _)
  | ECall (generateCodeViaCli _)
  | ECall (runSdkGeneration _ _ _) => true
  | EAppQuit | EDockHide | EInitializeElectronUi _ _ => true
  | EConsoleLog l => negb (String.eqb l "Starting self-check")
  | _ => false
  end.

(** The line the quit handler logs once the store is closed. *)
Definition shutdown_line : Event :=
  ELogInfo (LText "Database closed, shutting down.").

(** Writes to the file system: [fs.unlinkSync] and [fs.renameSync]. *)
Definition is_fs_write (e : Event) : bool :=
  match e with EUnlink _ | ERename _ _ => true | _ => false end.

(** What Normal mode shows to the user: the window and the dock. *)
Definition is_ui (e : Event) : bool :=
  match e with
  | EInitializeElectronUi _ _ | EWindowCreateIfNotThere _ | EDockHide => true
  | _ => false
  end.

Definition is_dock_hide (e : Event) : bool :=
  match e with EDockHide => true | _ => false end.

(** ** Worlds and states used by the examples *)

Module Examples.

(** Every collaborator succeeds; the server is asked for an ephemeral
    port and binds 51234. *)
Definition all_succeed : World := {|
  initDatabase_settles := λ _, inr 7;
  loadSchema_settles := λ d _ _, inr d;
  loadZcl_settles := λ d _, inr {| db := d |};
  loadTemplates_settles := λ d _, inr {| db := d |};
  initHttpServer_settles := λ _ _, inr 51234%Z;
  setHandlebarTemplateDirForCli_settles := λ v, inr v;
  generateCodeViaCli_settles := λ _, inr tt;
  runSdkGeneration_settles := λ _ _ _, inr tt;
  closeDatabase_settles := λ _, inr tt;
  sqliteFile := "zap.sqlite";
  schemaFile := "zap-schema.sql";
  zapVersion := "0.0.1";
  zclPropertiesFile := JStr "zcl.properties";
  genTemplateJsonFile := JStr "gen-templates.json";
  httpPort := JNum 0;
  platform := "linux";
  dock := false;
  DEV := JUndefined
|}.

(** As [all_succeed], with the schema load rejecting. *)
Definition schema_fails : World := {|
  initDatabase_settles := initDatabase_settles all_succeed;
  loadSchema_settles := λ _ _ _, inl "schema version mismatch";
  loadZcl_settles := loadZcl_settles all_succeed;
  loadTemplates_settles := loadTemplates_settles all_succeed;
  initHttpServer_settles := initHttpServer_settles all_succeed;
  setHandlebarTemplateDirForCli_settles :=
    setHandlebarTemplateDirForCli_settles all_succeed;
  generateCodeViaCli_settles := generateCodeViaCli_settles all_succeed;
  runSdkGeneration_settles := runSdkGeneration_settles all_succeed;
  closeDatabase_settles := closeDatabase_settles all_succeed;
  sqliteFile := sqliteFile all_succeed;
  schemaFile := schemaFile all_succeed;
  zapVersion := zapVersion all_succeed;
  zclPropertiesFile := zclPropertiesFile all_succeed;
  genTemplateJsonFile := genTemplateJsonFile all_succeed;
  httpPort := httpPort all_succeed;
  platform := platform all_succeed;
  dock := dock all_succeed;
  DEV := DEV all_succeed
|}.

(** As [all_succeed], with both generators rejecting. *)
Definition generation_fails : World := {|
  initDatabase_settles := initDatabase_settles all_succeed;
  loadSchema_settles := loadSchema_settles all_succeed;
  loadZcl_settles := loadZcl_settles all_succeed;
  loadTemplates_settles := loadTemplates_settles all_succeed;
  initHttpServer_settles := initHttpServer_settles all_succeed;
  setHandlebarTemplateDirForCli_settles :=
    setHandlebarTemplateDirForCli_settles all_succeed;
  generateCodeViaCli_settles := λ _, inl "template error";
  runSdkGeneration_settles := λ _ _ _, inl "sdk error";
  closeDatabase_settles := closeDatabase_settles all_succeed;
  sqliteFile := sqliteFile all_succeed;
  schemaFile := schemaFile all_succeed;
  zapVersion := zapVersion all_succeed;
  zclPropertiesFile := zclPropertiesFile all_succeed;
  genTemplateJsonFile := genTemplateJsonFile all_succeed;
  httpPort := httpPort all_succeed;
  platform := platform all_succeed;
  dock := dock all_succeed;
  DEV := DEV all_succeed
|}.

(** A fresh process: nothing on disk, no handle, no server, no window. *)
Definition fresh : St :=
  {| files := ∅; mainDatabase := None; serverPort := None; window := None |}.

(** A store file and an older backup on disk. *)
Definition with_backup : St :=
  {| files := {[ "zap.sqlite" := "current"; "zap.sqlite~" := "older" ]};
     mainDatabase := None; serverPort := None; window := None |}.

(** A store file and no backup. *)
Definition without_backup : St :=
  {| files := {[ "zap.sqlite" := "current" ]};
     mainDatabase := None; serverPort := None; window := None |}.

Definition argv_of (tokens : list JsVal) : Argv :=
  {| positional := tokens; clearDb := JUndefined; output := JStr "out";
     template := JUndefined; zclProperties := JUndefined;
     noUi := JUndefined; showUrl := JUndefined; uiMode := JUndefined |}.

(** [zap --noUi --showUrl] *)
Definition argv_headless : Argv :=
  {| positional := []; clearDb := JUndefined; output := JUndefined;
     template := JUndefined; zclProperties := JUndefined;
     noUi := JBool true; showUrl := JBool true; uiMode := JUndefined |}.

(** [zap] with the UI: Normal mode, window opened on the server's port. *)
Definition argv_ui : Argv := argv_of [].

(** The state after a Normal start with an ephemeral port, once the user
    has closed the window: the server still listens on 51234. *)
Definition server_running_no_window : St :=
  set_window None (final (on_ready all_succeed argv_ui fresh)).

End Examples.

(** ** Further worlds and arguments used by the examples *)

Module Scenarios.

(** [zap --clearDb=false --noUi --showUrl]: the option is present, with a
    falsy value. *)
Definition argv_reset_false : Argv :=
  {| positional := []; clearDb := JBool false; output := JUndefined;
     template := JUndefined; zclProperties := JUndefined;
     noUi := JBool true; showUrl := JBool true; uiMode := JUndefined |}.

(** As [all_succeed], with the store open rejecting. *)
Definition store_open_fails : World := {|
  initDatabase_settles := λ _, inl "cannot open";
  loadSchema_settles := loadSchema_settles Examples.all_succeed;
  loadZcl_settles := loadZcl_settles Examples.all_succeed;
  loadTemplates_settles := loadTemplates_settles Examples.all_succeed;
  initHttpServer_settles := initHttpServer_settles Examples.all_succeed;
  setHandlebarTemplateDirForCli_settles :=
    setHandlebarTemplateDirForCli_settles Examples.all_succeed;
  generateCodeViaCli_settles := generateCodeViaCli_settles Examples.all_succeed;
  runSdkGeneration_settles := runSdkGeneration_settles Examples.all_succeed;
  closeDatabase_settles := closeDatabase_settles Examples.all_succeed;
  sqliteFile := sqliteFile Examples.all_succeed;
  schemaFile := schemaFile Examples.all_succeed;
  zapVersion := zapVersion Examples.all_succeed;
  zclPropertiesFile := zclPropertiesFile Examples.all_succeed;
  genTemplateJsonFile := genTemplateJsonFile Examples.all_succeed;
  httpPort := httpPort Examples.all_succeed;
  platform := platform Examples.all_succeed;
  dock := dock Examples.all_succeed;
  DEV := DEV Examples.all_succeed
|}.

(** As [all_succeed], on macOS: the application has a dock. *)
Definition with_dock : World := {|
  initDatabase_settles := initDatabase_settles Examples.all_succeed;
  loadSchema_settles := loadSchema_settles Examples.all_succeed;
  loadZcl_settles := loadZcl_settles Examples.all_succeed;
  loadTemplates_settles := loadTemplates_settles Examples.all_succeed;
  initHttpServer_settles := initHttpServer_settles Examples.all_succeed;
  setHandlebarTemplateDirForCli_settles :=
    setHandlebarTemplateDirForCli_settles Examples.all_succeed;
  generateCodeViaCli_settles := generateCodeViaCli_settles Examples.all_succeed;
  runSdkGeneration_settles := runSdkGeneration_settles Examples.all_succeed;
  closeDatabase_settles := closeDatabase_settles Examples.all_succeed;
  sqliteFile := sqliteFile Examples.all_succeed;
  schemaFile := schemaFile Examples.all_succeed;
  zapVersion := zapVersion Examples.all_succeed;
  zclPropertiesFile := zclPropertiesFile Examples.all_succeed;
  genTemplateJsonFile := genTemplateJsonFile Examples.all_succeed;
  httpPort := httpPort Examples.all_succeed;
  platform := "darwin";
  dock := true;
  DEV := DEV Examples.all_succeed
|}.

(** [zap selfCheck --zclProperties other.properties] *)
Definition argv_selfcheck_override : Argv :=
  {| positional := [JStr "selfCheck"]; clearDb := JUndefined;
     output := JUndefined; template := JUndefined;
     zclProperties := JStr "other.properties";
     noUi := JUndefined; showUrl := JUndefined; uiMode := JUndefined |}.

End Scenarios.

(** ** Proof automation *)

Ltac unfold_orchestrator :=
  unfold workflow, on_ready, on_quit, on_activate, on_window_all_closed,
    startSelfCheck, startNormal, applyGenerationSettings, startSdkGeneration,
    setGenerationDirAndTemplateDir, attachToDb, setMainDatabase,
    dbApi_initDatabase, dbApi_loadSchema, dbApi_closeDatabase,
    zclLoader_loadZcl, generatorEngine_loadTemplates,
    menu_setHandlebarTemplateDirForCli, menu_generateCodeViaCli,
    sdkGen_runSdkGeneration, httpServer_initHttpServer,
    httpServer_httpServerPort, windowJs_initializeElectronUi,
    windowJs_windowCreateIfNotThere in *.

Ltac unfold_promise :=
  unfold await, mbind, Promise_bind, then_, catch_, emit, resolve, throw,
    get, put in *.

(** Case analysis on how each awaited promise settles, in program order. *)
Ltac settle :=
  repeat (cbn in *;
    match goal with
    | |- context [match ?r with inl _ => _ | inr _ => _ end] =>
        destruct r eqn:?
    end);
  cbn in *.

(** Case analysis on the tests of conditionals, then on the promises. *)
Ltac branch :=
  repeat (cbn in *;
    match goal with
    | |- context [if ?b then _ else _] => destruct b eqn:?
    | |- context [match ?r with inl _ => _ | inr _ => _ end] =>
        destruct r eqn:?
    end);
  cbn in *.

Ltac run_cases := unfold_orchestrator; unfold_promise; settle.
Ltac run_branches := unfold_orchestrator; unfold_promise; branch.

Lemma suffix_here {A} (u : list A) : u = ([] ++ u)%list.
Proof. reflexivity. Qed.

Lemma suffix_step {A} (a : A) (l t u : list A) :
  l = (t ++ u)%list → a :: l = ((a :: t) ++ u)%list.
Proof. intros ->. reflexivity. Qed.

(** An explicit list ends with an explicit list, by search. *)
Ltac find_suffix := repeat first [apply suffix_here | eapply suffix_step].

(** Case analysis on a membership in an explicit list. *)
Ltac elem_cases H :=
  repeat match type of H with
  | _ ∈ _ :: _ => apply elem_of_cons in H as [H|H]; [try discriminate H | ]
  | _ ∈ [] => by apply elem_of_nil in H
  end;
  simplify_eq.

(** A membership in an explicit list, by search. *)
Ltac find_elem :=
  repeat first [apply list_elem_of_here | apply list_elem_of_further].

(** Case analysis on a position in an explicit list. *)
Ltac index_cases H j :=
  repeat match type of H with
  | (_ :: _) !! j = Some _ =>
      destruct j as [|j]; cbn in H; [try discriminate H | ]
  | [] !! j = Some _ => discriminate H
  end.

(** * Properties *)

(** ** SelfCheck (C5) *)

(** C5.  In SelfCheck mode, if a pipeline stage rejects with [e], no
    termination is requested, exactly one error is logged, namely [e], and
    the chain rejects with [e]; if no stage rejects, the success marker is
    logged exactly once and termination is requested exactly once. *)
Theorem startSelfCheck_failure_and_success (w : World) (s : St) :
  let r := startSelfCheck w s in
  (∀ c e, ERejected c e ∈ events r →
     count is_quit (events r) = 0
     ∧ error_logs (events r) = [LError e]
     ∧ outcome r = Rejected e)
  ∧ (count is_rejection (events r) = 0 →
     count (is_console_log "Self-check done!") (events r) = 1
     ∧ count is_quit (events r) = 1
     ∧ error_logs (events r) = []
     ∧ outcome r = Resolved tt).
Proof.
  run_cases; split; intros; try discriminate;
    try (elem_cases H); repeat split; reflexivity.
Qed.

Lemma startSelfCheck_failure_and_success_witness :
  (count is_quit (events (startSelfCheck Examples.schema_fails Examples.fresh)) = 0
   ∧ error_logs (events (startSelfCheck Examples.schema_fails Examples.fresh))
     = [LError "schema version mismatch"]
   ∧ outcome (startSelfCheck Examples.schema_fails Examples.fresh)
     = Rejected "schema version mismatch")
  ∧ (count (is_console_log "Self-check done!")
       (events (startSelfCheck Examples.all_succeed Examples.fresh)) = 1
     ∧ count is_quit (events (startSelfCheck Examples.all_succeed Examples.fresh)) = 1
     ∧ error_logs (events (startSelfCheck Examples.all_succeed Examples.fresh)) = []
     ∧ outcome (startSelfCheck Examples.all_succeed Examples.fresh) = Resolved tt).
Proof.
  split.
  - apply (proj1 (startSelfCheck_failure_and_success
                    Examples.schema_fails Examples.fresh)
             (loadSchema 7 "zap-schema.sql" "0.0.1")).
    vm_compute. find_elem.
  - apply (proj2 (startSelfCheck_failure_and_success
                    Examples.all_succeed Examples.fresh)).
    reflexivity.
Defined.

(** ** The one-shot generation workflows (C1) *)

(** C1, as stated, fails: when the generation invocation rejects, neither
    workflow requests termination, and neither logs the error. *)
Lemma generation_failure_requests_no_termination :
  let r := applyGenerationSettings Examples.generation_fails
             (JStr "out") JUndefined JUndefined Examples.fresh in
  let r' := startSdkGeneration Examples.generation_fails
              (JStr "out") JUndefined JUndefined Examples.fresh in
  (ERejected (generateCodeViaCli (JStr "out")) "template error" ∈ events r
   ∧ count is_quit (events r) = 0
   ∧ error_logs (events r) = [])
  ∧ (ERejected (runSdkGeneration 7 (JStr "out") JUndefined) "sdk error" ∈ events r'
     ∧ count is_quit (events r') = 0
     ∧ error_logs (events r') = []).
Proof.
  vm_compute. repeat split; find_elem.
Qed.

(** C1, amended.  For every Generate-mode and every SdkGen-mode run: if no
    call rejects, the chain resolves and termination is requested exactly
    once, right after the generation invocation has resolved; if a call
    rejects with [e], no termination is requested and the promise the
    workflow returns rejects with [e]. *)
Theorem generation_quits_exactly_on_success
    (w : World) (s : St) (generationDir templateDir override : JsVal)
    (r : Run unit) :
  r = applyGenerationSettings w generationDir templateDir override s
  ∨ r = startSdkGeneration w generationDir templateDir override s →
  (count is_rejection (events r) = 0 →
     outcome r = Resolved tt
     ∧ count is_quit (events r) = 1
     ∧ ∃ t c, events r = (t ++ [EResolved c; EAppQuit])%list
              ∧ is_generation_call c = true)
  ∧ (∀ c e, ERejected c e ∈ events r →
       outcome r = Rejected e ∧ count is_quit (events r) = 0).
Proof.
  intros [-> | ->]; run_branches; split; intros; try discriminate;
    try (elem_cases H); repeat split; try reflexivity;
    do 2 eexists; (split; [find_suffix | reflexivity]).
Qed.

Lemma generation_quits_exactly_on_success_witness :
  (outcome (applyGenerationSettings Examples.all_succeed
              (JStr "out") (JStr "templates") JUndefined Examples.fresh)
   = Resolved tt)
  ∧ (outcome (startSdkGeneration Examples.generation_fails
                (JStr "out") JUndefined JUndefined Examples.fresh)
     = Rejected "sdk error"
     ∧ count is_quit
         (events (startSdkGeneration Examples.generation_fails
                    (JStr "out") JUndefined JUndefined Examples.fresh)) = 0).
Proof.
  split.
  - apply (proj1 (generation_quits_exactly_on_success
                    Examples.all_succeed Examples.fresh
                    (JStr "out") (JStr "templates") JUndefined _
                    (or_introl eq_refl))).
    reflexivity.
  - apply (proj2 (generation_quits_exactly_on_success
                    Examples.generation_fails Examples.fresh
                    (JStr "out") JUndefined JUndefined _
                    (or_intror eq_refl))
             (runSdkGeneration 7 (JStr "out") JUndefined)).
    vm_compute. find_elem.
Defined.

(** ** The metadata properties file of Generate and SdkGen (C10) *)

(** C10.  In Generate and SdkGen modes the path given to the metadata
    loader is the override when the override is truthy, and the default
    [args.zclPropertiesFile] when it is falsy, in particular when it is
    absent, [null] or the empty string; and once store and schema are up,
    the loader is called with that path. *)
Theorem metadata_path_is_truthy_override_or_default
    (w : World) (s : St) (generationDir templateDir override : JsVal)
    (r : Run unit) :
  r = applyGenerationSettings w generationDir templateDir override s
  ∨ r = startSdkGeneration w generationDir templateDir override s →
  (∀ d p, ECall (loadZcl d p) ∈ events r →
     (truthy override = true → p = override)
     ∧ (truthy override = false → p = zclPropertiesFile w)
     ∧ (override ∈ [JUndefined; JNull; JStr ""] → p = zclPropertiesFile w))
  ∧ (∀ d0 d1,
       initDatabase_settles w (sqliteFile w) = inr d0 →
       loadSchema_settles w d0 (schemaFile w) (zapVersion w) = inr d1 →
       ECall (loadZcl d1 (if truthy override then override
                          else zclPropertiesFile w)) ∈ events r).
Proof.
  intros Hr. split.
  - intros d p Hcall.
    assert (p = if truthy override then override else zclPropertiesFile w) as ->.
    { destruct Hr as [-> | ->]; revert Hcall;
        unfold_orchestrator; unfold_promise;
        generalize (if truthy override then override else zclPropertiesFile w);
        intros q; branch; intros Hcall; elem_cases Hcall; reflexivity. }
    repeat split.
    + intros ->. reflexivity.
    + intros ->. reflexivity.
    + intros Hfalsy. elem_cases Hfalsy; reflexivity.
  - intros d0 d1 H0 H1.
    destruct Hr as [-> | ->]; unfold_orchestrator; unfold_promise;
      rewrite H0; cbn; rewrite H1; branch; find_elem.
Qed.

Lemma metadata_path_is_truthy_override_or_default_witness :
  ECall (loadZcl 7 (JStr "zcl.properties"))
  ∈ events (applyGenerationSettings Examples.all_succeed
              (JStr "out") JUndefined (JStr "") Examples.fresh).
Proof.
  apply (proj2 (metadata_path_is_truthy_override_or_default
                  Examples.all_succeed Examples.fresh
                  (JStr "out") JUndefined (JStr "") _ (or_introl eq_refl))
           7 7); reflexivity.
Defined.

(** ** Dispatch on the command token (C7) *)

Lemma on_ready_workflow (w : World) (argv : Argv) :
  on_ready w argv
  = (_ ← emit (ELogInfo (LArgv argv));
     _ ← (if not_nullish (clearDb argv) then clearDatabaseFile w
          else resolve tt);
     workflow w (classify argv) argv).
Proof.
  unfold on_ready, classify, workflow.
  repeat match goal with
         | |- context [includes ?l ?x] => destruct (includes l x)
         end; reflexivity.
Qed.

(** C7.  The ready handler runs the workflow of exactly one command, the
    one [classify] selects, and that is the first of [selfCheck],
    [generate], [sdkGen] whose token is among the positional arguments,
    Normal when none is; other recognised tokens present are ignored. *)
Theorem ready_runs_first_matching_command (w : World) (argv : Argv) :
  let present tok := JStr tok ∈ positional argv in
  on_ready w argv
  = (_ ← emit (ELogInfo (LArgv argv));
     _ ← (if not_nullish (clearDb argv) then clearDatabaseFile w
          else resolve tt);
     workflow w (classify argv) argv)
  ∧ (present "selfCheck" → classify argv = SelfCheck)
  ∧ (¬ present "selfCheck" → present "generate" → classify argv = Generate)
  ∧ (¬ present "selfCheck" → ¬ present "generate" → present "sdkGen" →
     classify argv = SdkGen)
  ∧ (¬ present "selfCheck" → ¬ present "generate" → ¬ present "sdkGen" →
     classify argv = Normal).
Proof.
  cbn zeta. split; [apply on_ready_workflow|].
  unfold classify, includes.
  repeat split; intros; repeat case_bool_decide; done.
Qed.

Lemma ready_runs_first_matching_command_witness :
  classify (Examples.argv_of [JStr "sdkGen"; JStr "generate"]) = Generate.
Proof.
  apply (proj1 (proj2 (proj2 (ready_runs_first_matching_command
                                Examples.all_succeed
                                (Examples.argv_of [JStr "sdkGen"; JStr "generate"]))))).
  - cbn. intros H. elem_cases H.
  - cbn. find_elem.
Defined.

(** ** Store-reset rotation (C3) *)

Lemma backup_path_differs (path : string) : path +:+ "~" ≠ path.
Proof.
  induction path as [|a path IH]; cbn; [discriminate|].
  intros H. injection H as H. exact (IH H).
Qed.

Ltac unfold_fs := unfold clearDatabaseFile, existsSync, unlinkSync, renameSync.

(** The three courses of [clearDatabaseFile]. *)
Lemma clearDatabaseFile_no_store (w : World) (s : St) :
  files s !! sqliteFile w = None →
  clearDatabaseFile w s = Build_Run [] s (Resolved tt).
Proof.
  intros Hp. unfold_fs. unfold_promise. cbn. rewrite Hp. reflexivity.
Qed.

Lemma clearDatabaseFile_no_backup (w : World) (s : St) (c : string) :
  let path := sqliteFile w in
  let pathBak := path +:+ "~" in
  files s !! path = Some c →
  files s !! pathBak = None →
  clearDatabaseFile w s
  = Build_Run
      [ELogWarning (LText ("Database restart requested, moving file: "
                           +:+ path +:+ " to " +:+ pathBak));
       ERename path pathBak]
      (set_files (<[pathBak := c]> (delete path (files s))) s)
      (Resolved tt).
Proof.
  intros path pathBak Hp Hb. subst path pathBak.
  unfold_fs. unfold_promise. cbn. rewrite Hp. cbn. rewrite Hb. cbn.
  rewrite Hp. reflexivity.
Qed.

Lemma clearDatabaseFile_backup (w : World) (s : St) (c b : string) :
  let path := sqliteFile w in
  let pathBak := path +:+ "~" in
  files s !! path = Some c →
  files s !! pathBak = Some b →
  clearDatabaseFile w s
  = Build_Run
      [ELogWarning (LText ("Deleting old backup file: " +:+ pathBak));
       EUnlink pathBak;
       ELogWarning (LText ("Database restart requested, moving file: "
                           +:+ path +:+ " to " +:+ pathBak));
       ERename path pathBak]
      (set_files (<[pathBak := c]> (delete path (delete pathBak (files s)))) s)
      (Resolved tt).
Proof.
  intros path pathBak Hp Hb. subst path pathBak.
  unfold_fs. unfold_promise. cbn. rewrite Hp. cbn. rewrite Hb. cbn.
  rewrite Hb. cbn.
  rewrite lookup_delete_ne by apply backup_path_differs.
  rewrite Hp. reflexivity.
Qed.

(** C3.  A call of the store-reset rotation: with no file at the store
    path it writes nothing, changes nothing and raises nothing; with a
    store file and a backup file it deletes the backup, then renames the
    store file to the backup path, after which the backup path holds the
    former contents of the store file, the store path holds no file, and
    every other path is as before. *)
Theorem clearDatabaseFile_rotation (w : World) (s : St) :
  let path := sqliteFile w in
  let pathBak := path +:+ "~" in
  let r := clearDatabaseFile w s in
  (files s !! path = None → r = Build_Run [] s (Resolved tt))
  ∧ (∀ c b,
       files s !! path = Some c →
       files s !! pathBak = Some b →
       events r
       = [ELogWarning (LText ("Deleting old backup file: " +:+ pathBak));
          EUnlink pathBak;
          ELogWarning (LText ("Database restart requested, moving file: "
                              +:+ path +:+ " to " +:+ pathBak));
          ERename path pathBak]
       ∧ outcome r = Resolved tt
       ∧ files (final r) !! pathBak = Some c
       ∧ files (final r) !! path = None
       ∧ (∀ q, q ≠ path → q ≠ pathBak → files (final r) !! q = files s !! q)
       ∧ dom (files (final r)) = dom (files s) ∖ {[path]}).
Proof.
  intros path pathBak r. split.
  - apply clearDatabaseFile_no_store.
  - intros c b Hp Hb. subst r.
    rewrite (clearDatabaseFile_backup w s c b Hp Hb). cbn.
    fold path. fold pathBak.
    assert (pathBak ≠ path) as Hne by apply backup_path_differs.
    repeat split.
    + apply lookup_insert_eq.
    + rewrite lookup_insert_ne by done. apply lookup_delete_eq.
    + intros q Hq Hqb. rewrite lookup_insert_ne by done.
      rewrite !lookup_delete_ne by done. reflexivity.
    + rewrite dom_insert_L, !dom_delete_L.
      assert (pathBak ∈ dom (files s)) by (apply elem_of_dom; eauto).
      apply set_eq. intros q. rewrite !elem_of_union, !elem_of_difference,
        !elem_of_singleton.
      destruct (decide (q = pathBak)) as [-> | ?]; intuition congruence.
Qed.

Lemma clearDatabaseFile_rotation_witness :
  clearDatabaseFile Examples.all_succeed Examples.fresh
  = Build_Run [] Examples.fresh (Resolved tt)
  ∧ files (final (clearDatabaseFile Examples.all_succeed Examples.with_backup))
      !! "zap.sqlite~" = Some "current"
  ∧ files (final (clearDatabaseFile Examples.all_succeed Examples.with_backup))
      !! "zap.sqlite" = None.
Proof.
  split.
  - apply (proj1 (clearDatabaseFile_rotation Examples.all_succeed Examples.fresh)).
    reflexivity.
  - destruct (proj2 (clearDatabaseFile_rotation
                       Examples.all_succeed Examples.with_backup)
                "current" "older" eq_refl eq_refl)
      as (_ & _ & Hb & Hp & _).
    exact (conj Hb Hp).
Defined.

Example rotation_without_backup :
  let r := clearDatabaseFile Examples.all_succeed Examples.without_backup in
  events r
  = [ELogWarning
       (LText "Database restart requested, moving file: zap.sqlite to zap.sqlite~");
     ERename "zap.sqlite" "zap.sqlite~"]
  ∧ files (final r) !! "zap.sqlite~" = Some "current"
  ∧ files (final r) !! "zap.sqlite" = None.
Proof. vm_compute. repeat split. Qed.

(** ** Order of the setup stages (C8) *)

(** A position below a bound at which a property holds, by search. *)
Ltac search_index tac :=
  first [ exists 0; tac | exists 1; tac | exists 2; tac | exists 3; tac
        | exists 4; tac | exists 5; tac | exists 6; tac | exists 7; tac
        | exists 8; tac | exists 9; tac | exists 10; tac | exists 11; tac
        | exists 12; tac | exists 13; tac ].

Ltac close_order :=
  solve [ repeat split; first [ lia | reflexivity | eassumption ] ].

(** C8.  In the run of any of the four workflows: a schema load is called
    only after the store open has resolved and its handle has been
    registered as current; a metadata load only after the schema load has
    resolved; a template load only after the metadata load has resolved;
    and after a rejection no stage starts and no collaborator is called
    any more. *)
Theorem pipeline_stage_order (w : World) (c : Command) (argv : Argv) (s : St) :
  let t := events (workflow w c argv s) in
  (∀ j d f v, t !! j = Some (ECall (loadSchema d f v)) →
     ∃ i k, i < k ∧ k < j
       ∧ t !! i = Some (EResolved (initDatabase (sqliteFile w)))
       ∧ t !! k = Some (ESetMainDatabase d)
       ∧ initDatabase_settles w (sqliteFile w) = inr d)
  ∧ (∀ j d p, t !! j = Some (ECall (loadZcl d p)) →
     ∃ i d', i < j
       ∧ t !! i = Some (EResolved (loadSchema d' (schemaFile w) (zapVersion w)))
       ∧ loadSchema_settles w d' (schemaFile w) (zapVersion w) = inr d)
  ∧ (∀ j d p, t !! j = Some (ECall (loadTemplates d p)) →
     ∃ i d' p' ctx, i < j
       ∧ t !! i = Some (EResolved (loadZcl d' p'))
       ∧ loadZcl_settles w d' p' = inr ctx
       ∧ d = db ctx)
  ∧ (∀ i c' e, t !! i = Some (ERejected c' e) →
     ∀ j b, i < j → t !! j = Some b →
       is_call b = false ∧ is_stage b = false).
Proof.
  destruct c; run_branches; (split; [|split; [|split]]).
  all: try (intros pos d' f' v' Hpos; index_cases Hpos pos; simplify_eq;
            search_index ltac:(search_index close_order)).
  all: try (intros pos d' p' Hpos; index_cases Hpos pos; simplify_eq;
            search_index ltac:(eexists; close_order)).
  all: try (intros pos d' p' Hpos; index_cases Hpos pos; simplify_eq;
            search_index ltac:(do 3 eexists; close_order)).
  all: intros pos c' e' Hpos pos' b Hlt Hpos';
    index_cases Hpos pos; index_cases Hpos' pos'; simplify_eq;
    first [lia | split; reflexivity].
Qed.

Lemma pipeline_stage_order_witness :
  let t := events (workflow Examples.all_succeed Normal
                     Examples.argv_headless Examples.fresh) in
  ∃ i k, i < k ∧ k < 3
    ∧ t !! i = Some (EResolved (initDatabase "zap.sqlite"))
    ∧ t !! k = Some (ESetMainDatabase 7)
    ∧ initDatabase_settles Examples.all_succeed "zap.sqlite" = inr 7.
Proof.
  apply (proj1 (pipeline_stage_order Examples.all_succeed Normal
                  Examples.argv_headless Examples.fresh)
           3 7 "zap-schema.sql" "0.0.1").
  reflexivity.
Defined.

(** ** The stages each command runs (C2) *)

(** C2, as stated, fails: with every collaborator succeeding, Generate and
    SdkGen complete their mode-specific action without ever loading the
    templates, so their stages differ from those of SelfCheck and Normal. *)
Lemma generate_skips_template_load :
  let run tokens :=
    on_ready Examples.all_succeed (Examples.argv_of tokens) Examples.fresh in
  stages (events (run [JStr "selfCheck"])) = full_pipeline
  ∧ stages (events (run [])) = full_pipeline
  ∧ stages (events (run [JStr "generate"]))
    = [StoreOpen; Register; SchemaLoad; MetadataLoad]
  ∧ stages (events (run [JStr "sdkGen"]))
    = [StoreOpen; Register; SchemaLoad; MetadataLoad]
  ∧ outcome (run [JStr "generate"]) = Resolved tt
  ∧ outcome (run [JStr "sdkGen"]) = Resolved tt
  ∧ stages (events (run [JStr "generate"])) ≠ full_pipeline.
Proof.
  vm_compute. repeat split. discriminate.
Qed.

(** C2, amended.  SelfCheck and Normal run the five stages open store,
    register current handle, load schema, load metadata, load templates;
    Generate and SdkGen run the first four of them and no template load.
    In every workflow the stages run in that order, a run cut short by a
    rejection goes through an initial part of them, and every stage starts
    before any mode-specific action. *)
Theorem stages_per_command (w : World) (c : Command) (argv : Argv) (s : St) :
  let t := events (workflow w c argv s) in
  (count is_rejection t = 0 → stages t = pipeline_of c)
  ∧ stages t `prefix_of` pipeline_of c
  ∧ (∀ i j a b,
       t !! i = Some a → t !! j = Some b →
       is_mode_action a = true → is_stage b = true → j < i).
Proof.
  destruct c; run_branches; unfold url_line; repeat split.
  all: try (intros; first [discriminate | reflexivity]).
  all: try (eexists; cbn; reflexivity).
  all: intros pos pos' a b Ha Hb Hact Hst;
    index_cases Ha pos; simplify_eq; try discriminate Hact;
    index_cases Hb pos'; simplify_eq; try discriminate Hst; lia.
Qed.

Lemma stages_per_command_witness :
  stages (events (workflow Examples.all_succeed SdkGen
                    (Examples.argv_of [JStr "sdkGen"]) Examples.fresh))
  = [StoreOpen; Register; SchemaLoad; MetadataLoad]
  ∧ 4 < 8.
Proof.
  split.
  - apply (proj1 (stages_per_command Examples.all_succeed SdkGen
                    (Examples.argv_of [JStr "sdkGen"]) Examples.fresh)).
    reflexivity.
  - apply (proj2 (proj2 (stages_per_command Examples.all_succeed SdkGen
                           (Examples.argv_of [JStr "sdkGen"]) Examples.fresh))
             8 4 (ECall (runSdkGeneration 7 (JStr "out") JUndefined))
             (ECall (loadSchema 7 "zap-schema.sql" "0.0.1")));
      reflexivity.
Defined.

(** ** The URL line of headless Normal mode (C4) *)

Lemma set_files_same (s : St) : set_files (files s) s = s.
Proof. destruct s; reflexivity. Qed.

(** The rotation resolves, touches only the files, and prints nothing. *)
Lemma clearDatabaseFile_quiet (w : World) (s : St) :
  ∃ pre fs',
    clearDatabaseFile w s = Build_Run pre (set_files fs' s) (Resolved tt)
    ∧ stdout pre = [].
Proof.
  destruct (files s !! sqliteFile w) as [c|] eqn:Hp.
  - destruct (files s !! (sqliteFile w +:+ "~")) as [b|] eqn:Hb.
    + rewrite (clearDatabaseFile_backup w s c b Hp Hb).
      do 2 eexists; split; reflexivity.
    + rewrite (clearDatabaseFile_no_backup w s c Hp Hb).
      do 2 eexists; split; reflexivity.
  - rewrite (clearDatabaseFile_no_store w s Hp).
    exists [], (files s). rewrite set_files_same. split; reflexivity.
Qed.

(** The ready handler's run: a prelude that prints nothing and touches only
    the files, then the selected workflow. *)
Lemma on_ready_run (w : World) (argv : Argv) (s : St) :
  ∃ pre fs',
    stdout pre = []
    ∧ on_ready w argv s
      = Build_Run
          (pre ++ events (workflow w (classify argv) argv (set_files fs' s)))
          (final (workflow w (classify argv) argv (set_files fs' s)))
          (outcome (workflow w (classify argv) argv (set_files fs' s))).
Proof.
  rewrite on_ready_workflow. unfold_promise. cbn.
  destruct (not_nullish (clearDb argv)).
  - destruct (clearDatabaseFile_quiet w s) as (pre & fs' & -> & Hpre).
    exists (ELogInfo (LArgv argv) :: pre), fs'. split; [exact Hpre|].
    destruct (workflow w (classify argv) argv (set_files fs' s)); reflexivity.
  - exists [ELogInfo (LArgv argv)], (files s). rewrite set_files_same.
    split; [reflexivity|].
    destruct (workflow w (classify argv) argv s); reflexivity.
Qed.

Lemma stdout_app (t t' : list Event) : stdout (t ++ t') = (stdout t ++ stdout t')%list.
Proof. apply omap_app. Qed.

Lemma workflow_url_line (w : World) (c : Command) (argv : Argv) (s : St) :
  let r := workflow w c argv s in
  (c = Normal →
   truthy (noUi argv) = true →
   truthy (showUrl argv) = true →
   outcome r = Resolved tt →
   ∃ d bound,
     initHttpServer_settles w d (httpPort w) = inr bound
     ∧ EResolved (initHttpServer d (httpPort w)) ∈ events r
     ∧ serverPort (final r) = Some bound
     ∧ stdout (events r) = [url_line (JNum bound)])
  ∧ (∀ l p, l ∈ stdout (events r) → l = url_line p →
     c = Normal ∧ truthy (noUi argv) = true ∧ truthy (showUrl argv) = true).
Proof.
  destruct (truthy (noUi argv)) eqn:Hui, (truthy (showUrl argv)) eqn:Hurl.
  all: unfold workflow; rewrite ?Hui, ?Hurl; destruct c.
  all: run_branches; split.
  all: try (intros; discriminate).
  all: try (intros l p Hl Hp; unfold url_line in *; cbn in Hl;
            elem_cases Hl; first [discriminate Hp | done]).
  all: intros _ _ _ _; do 2 eexists; repeat split;
    first [eassumption | find_elem | reflexivity].
Qed.

(** C4.  When the ready handler runs Normal mode with the UI disabled and
    show-url requested, and the start-up completes, standard output holds
    exactly one line, [url: http://localhost:<port>/index.html], where
    <port> is the port the server bound, whatever port was configured; and
    in any run of the ready handler, a line of that form on standard output
    means Normal mode with the UI disabled and show-url requested. *)
Theorem url_line_of_headless_normal (w : World) (argv : Argv) (s : St) :
  let r := on_ready w argv s in
  (classify argv = Normal →
   truthy (noUi argv) = true →
   truthy (showUrl argv) = true →
   outcome r = Resolved tt →
   ∃ d bound,
     initHttpServer_settles w d (httpPort w) = inr bound
     ∧ EResolved (initHttpServer d (httpPort w)) ∈ events r
     ∧ serverPort (final r) = Some bound
     ∧ stdout (events r)
       = ["url: http://localhost:" +:+ toString (JNum bound) +:+ "/index.html"])
  ∧ (∀ l p,
       l ∈ stdout (events r) →
       l = "url: http://localhost:" +:+ toString p +:+ "/index.html" →
       classify argv = Normal
       ∧ truthy (noUi argv) = true
       ∧ truthy (showUrl argv) = true).
Proof.
  destruct (on_ready_run w argv s) as (pre & fs' & Hpre & ->). cbn.
  rewrite stdout_app, Hpre. cbn.
  destruct (workflow_url_line w (classify argv) argv (set_files fs' s))
    as [Hurl Honly].
  split.
  - intros Hc Hui Hshow Hout.
    destruct (Hurl Hc Hui Hshow Hout) as (d & bound & Hb & Hin & Hport & Hline).
    exists d, bound. repeat split; try assumption.
    apply elem_of_app. right. exact Hin.
  - exact Honly.
Qed.

Lemma url_line_of_headless_normal_witness :
  ∃ d bound,
    initHttpServer_settles Examples.all_succeed d (JNum 0) = inr bound
    ∧ EResolved (initHttpServer d (JNum 0))
      ∈ events (on_ready Examples.all_succeed Examples.argv_headless
                  Examples.with_backup)
    ∧ serverPort (final (on_ready Examples.all_succeed Examples.argv_headless
                           Examples.with_backup)) = Some bound
    ∧ stdout (events (on_ready Examples.all_succeed Examples.argv_headless
                        Examples.with_backup))
      = ["url: http://localhost:" +:+ toString (JNum bound) +:+ "/index.html"].
Proof.
  apply (proj1 (url_line_of_headless_normal Examples.all_succeed
                  Examples.argv_headless Examples.with_backup));
    reflexivity.
Defined.

Example url_line_ephemeral_port :
  stdout (events (on_ready Examples.all_succeed Examples.argv_headless
                    Examples.fresh))
  = ["url: http://localhost:51234/index.html"].
Proof. reflexivity. Qed.

(** ** Quit (C9) *)




(** ** Reactivation (C6) *)

(** The activate handler calls no collaborator of the pipeline, whatever
    the state: the store is not opened again. *)
Lemma on_activate_events (w : World) (s : St) :
  events (on_activate w s)
  = [ELogInfo (LText "Activate..."); EWindowCreateIfNotThere (httpPort w)].
Proof.
  unfold_orchestrator. unfold_promise. cbn. destruct (window s); reflexivity.
Qed.

Example window_all_closed_quits_off_darwin :
  events (on_window_all_closed Examples.all_succeed Examples.fresh) = [EAppQuit].
Proof. reflexivity. Qed.

(** C6.  With port 0 configured and the server listening on the port it
    bound, 51234, the start-up opens its window on 51234; the activate
    handler, run with no window present, calls no pipeline stage, and
    opens the window on the configured port 0, not on the bound port. *)
Theorem activate_opens_window_on_configured_port :
  let started := final (on_ready Examples.all_succeed Examples.argv_ui Examples.fresh) in
  let r := on_activate Examples.all_succeed Examples.server_running_no_window in
  serverPort started = Some 51234%Z
  ∧ window started = Some (JNum 51234)
  ∧ serverPort Examples.server_running_no_window = Some 51234%Z
  ∧ window Examples.server_running_no_window = None
  ∧ events r = [ELogInfo (LText "Activate..."); EWindowCreateIfNotThere (JNum 0)]
  ∧ count is_call (events r) = 0
  ∧ window (final r) = Some (JNum 0)
  ∧ window (final r) ≠ Some (JNum 51234).
Proof.
  vm_compute. repeat split. discriminate.
Qed.

(** * Further properties of the orchestrator *)

(** ** The rotation in every state of the disk *)

Lemma clearDatabaseFile_store_gone (w : World) (s : St) :
  files (final (clearDatabaseFile w s)) !! sqliteFile w = None.
Proof.
  assert (sqliteFile w +:+ "~" ≠ sqliteFile w) as Hne
    by apply backup_path_differs.
  destruct (files s !! sqliteFile w) as [c|] eqn:Hp.
  - destruct (files s !! (sqliteFile w +:+ "~")) as [b|] eqn:Hb.
    + rewrite (clearDatabaseFile_backup w s c b Hp Hb). cbn.
      rewrite lookup_insert_ne by done. apply lookup_delete_eq.
    + rewrite (clearDatabaseFile_no_backup w s c Hp Hb). cbn.
      rewrite lookup_insert_ne by done. apply lookup_delete_eq.
  - rewrite (clearDatabaseFile_no_store w s Hp). exact Hp.
Qed.

(** X1. Whenever the rotation completes, with or without a backup on
    disk before it: the store path holds no file, the former contents of
    the store file, if there was one, are at the backup path, every other
    path is as before, and nothing but the files has changed. *)
Theorem clearDatabaseFile_postcondition (w : World) (s : St) :
  let path := sqliteFile w in
  let pathBak := path +:+ "~" in
  let r := clearDatabaseFile w s in
  outcome r = Resolved tt →
  files (final r) !! path = None
  ∧ (∀ c, files s !! path = Some c → files (final r) !! pathBak = Some c)
  ∧ (∀ q, q ≠ path → q ≠ pathBak → files (final r) !! q = files s !! q)
  ∧ final r = set_files (files (final r)) s.
Proof.
  intros path pathBak r _. subst r.
  assert (pathBak ≠ path) as Hne by apply backup_path_differs.
  destruct (files s !! path) as [c|] eqn:Hp.
  - destruct (files s !! pathBak) as [b|] eqn:Hb.
    + rewrite (clearDatabaseFile_backup w s c b Hp Hb). cbn.
      fold path; fold pathBak. repeat split.
      * rewrite lookup_insert_ne by done. apply lookup_delete_eq.
      * intros ? [= <-]. apply lookup_insert_eq.
      * intros q Hq Hqb. rewrite lookup_insert_ne by done.
        rewrite !lookup_delete_ne by done. reflexivity.
    + rewrite (clearDatabaseFile_no_backup w s c Hp Hb). cbn.
      fold path; fold pathBak. repeat split.
      * rewrite lookup_insert_ne by done. apply lookup_delete_eq.
      * intros ? [= <-]. apply lookup_insert_eq.
      * intros q Hq Hqb. rewrite lookup_insert_ne by done.
        rewrite lookup_delete_ne by done. reflexivity.
  - rewrite (clearDatabaseFile_no_store w s Hp). cbn. repeat split.
    + exact Hp.
    + intros c Hc. discriminate.
    + symmetry. apply set_files_same.
Qed.

Lemma clearDatabaseFile_postcondition_witness :
  files (final (clearDatabaseFile Examples.all_succeed Examples.without_backup))
    !! "zap.sqlite~" = Some "current".
Proof.
  apply (proj1 (proj2 (clearDatabaseFile_postcondition
                         Examples.all_succeed Examples.without_backup
                         eq_refl))).
  reflexivity.
Defined.

(** X2. With a store file and no backup yet, the rotation writes once, a
    rename, and deletes nothing: every file other than the store file is
    still there, and the disk holds as many files as before. *)
Theorem clearDatabaseFile_first_backup (w : World) (s : St) (c : string) :
  let path := sqliteFile w in
  let pathBak := path +:+ "~" in
  let r := clearDatabaseFile w s in
  files s !! path = Some c →
  files s !! pathBak = None →
  List.filter is_fs_write (events r) = [ERename path pathBak]
  ∧ dom (files (final r)) = {[pathBak]} ∪ dom (files s) ∖ {[path]}
  ∧ size (files (final r)) = size (files s).
Proof.
  intros path pathBak r Hp Hb. subst r.
  rewrite (clearDatabaseFile_no_backup w s c Hp Hb). cbn.
  fold path; fold pathBak. repeat split.
  - rewrite dom_insert_L, dom_delete_L. reflexivity.
  - assert (pathBak ≠ path) as Hne by apply backup_path_differs.
    rewrite map_size_insert_None
      by (rewrite lookup_delete_ne by done; exact Hb).
    rewrite map_size_delete, Hp.
    assert (size (files s) ≠ 0).
    { intros H0. apply map_size_empty_inv in H0. rewrite H0 in Hp.
      rewrite lookup_empty in Hp. discriminate. }
    lia.
Qed.

Lemma clearDatabaseFile_first_backup_witness :
  List.filter is_fs_write
    (events (clearDatabaseFile Examples.all_succeed Examples.without_backup))
  = [ERename "zap.sqlite" "zap.sqlite~"].
Proof.
  apply (clearDatabaseFile_first_backup
           Examples.all_succeed Examples.without_backup "current");
    reflexivity.
Defined.

(** X3. Rotating twice is rotating once: the second rotation finds no
    store file, writes nothing and changes nothing, so the backup made by
    the first one survives. *)
Theorem clearDatabaseFile_twice (w : World) (s : St) :
  let s1 := final (clearDatabaseFile w s) in
  clearDatabaseFile w s1 = Build_Run [] s1 (Resolved tt).
Proof.
  intros s1. apply clearDatabaseFile_no_store.
  apply clearDatabaseFile_store_gone.
Qed.

(** ** The ready handler and the rotation *)

Lemma clearDatabaseFile_resolves (w : World) (s : St) :
  outcome (clearDatabaseFile w s) = Resolved tt.
Proof.
  destruct (clearDatabaseFile_quiet w s) as (pre & fs' & -> & _). reflexivity.
Qed.

Lemma clearDatabaseFile_calls_nothing (w : World) (s : St) :
  Forall (λ e, is_call e = false) (events (clearDatabaseFile w s)).
Proof.
  destruct (files s !! sqliteFile w) as [c|] eqn:Hp.
  - destruct (files s !! (sqliteFile w +:+ "~")) as [b|] eqn:Hb.
    + rewrite (clearDatabaseFile_backup w s c b Hp Hb).
      repeat constructor.
    + rewrite (clearDatabaseFile_no_backup w s c Hp Hb).
      repeat constructor.
  - rewrite (clearDatabaseFile_no_store w s Hp). constructor.
Qed.

(** The workflows themselves never write to the file system and leave the
    files as they found them. *)
Lemma workflow_no_fs_write (w : World) (c : Command) (argv : Argv) (s : St) :
  Forall (λ e, is_fs_write e = false) (events (workflow w c argv s))
  ∧ files (final (workflow w c argv s)) = files s.
Proof.
  destruct c; run_branches; split; first [reflexivity | repeat constructor].
Qed.

(** The run of the ready handler, in full: the log of the arguments, the
    rotation if one was requested, then the selected workflow from the
    state the rotation left. *)
Lemma on_ready_split (w : World) (argv : Argv) (s : St) :
  let rot :=
    if not_nullish (clearDb argv) then clearDatabaseFile w s
    else Build_Run [] s (Resolved tt) in
  let wf := workflow w (classify argv) argv (final rot) in
  on_ready w argv s
  = Build_Run (ELogInfo (LArgv argv) :: events rot ++ events wf)
      (final wf) (outcome wf).
Proof.
  rewrite on_ready_workflow. unfold_promise. cbn.
  destruct (not_nullish (clearDb argv)).
  - pose proof (clearDatabaseFile_resolves w s) as Hres.
    destruct (clearDatabaseFile w s) as [t s' o]. cbn in *. subst o.
    destruct (workflow w (classify argv) argv s'); reflexivity.
  - cbn. destruct (workflow w (classify argv) argv s); reflexivity.
Qed.

(** X4. The rotation is requested by any [clearDb] other than [null]
    and [undefined], also by [false], [0] or the empty string.  Without a
    request the ready handler makes no write to the file system; with
    one, the rotation follows the log of the arguments at once, and the
    handler's writes to the file system are those of the rotation. *)
Theorem ready_rotates_on_request (w : World) (argv : Argv) (s : St) :
  let r := on_ready w argv s in
  (clearDb argv ∈ [JUndefined; JNull] →
     List.filter is_fs_write (events r) = [])
  ∧ (clearDb argv ∉ [JUndefined; JNull] →
     List.filter is_fs_write (events r)
     = List.filter is_fs_write (events (clearDatabaseFile w s))
     ∧ ∃ rest,
         events r
         = (ELogInfo (LArgv argv) :: events (clearDatabaseFile w s) ++ rest)%list).
Proof.
  cbn zeta. rewrite on_ready_split. cbn.
  assert (∀ s', List.filter is_fs_write
                  (events (workflow w (classify argv) argv s')) = []) as Hwf.
  { intros s'. pose proof (proj1 (workflow_no_fs_write w (classify argv) argv s')) as H.
    induction H as [|e t He _ IH]; [reflexivity|]. cbn. rewrite He. exact IH. }
  split.
  - intros Hnull.
    assert (not_nullish (clearDb argv) = false) as ->
      by (elem_cases Hnull; rewrite Hnull; reflexivity).
    cbn. apply Hwf.
  - intros Hreq.
    assert (not_nullish (clearDb argv) = true) as ->.
    { destruct (clearDb argv); try reflexivity; exfalso; apply Hreq; find_elem. }
    rewrite List.filter_app, Hwf, app_nil_r.
    split; [reflexivity|]. eexists. reflexivity.
Qed.

Lemma ready_rotates_on_request_witness :
  List.filter is_fs_write
    (events (on_ready Examples.all_succeed Scenarios.argv_reset_false
               Examples.with_backup))
  = [EUnlink "zap.sqlite~"; ERename "zap.sqlite" "zap.sqlite~"]
  ∧ List.filter is_fs_write
      (events (on_ready Examples.all_succeed Examples.argv_headless
                 Examples.with_backup))
    = [].
Proof.
  split.
  - rewrite (proj1 (proj2 (ready_rotates_on_request Examples.all_succeed
                             Scenarios.argv_reset_false Examples.with_backup)
                      ltac:(cbn; intros H; elem_cases H))).
    reflexivity.
  - apply (proj1 (ready_rotates_on_request Examples.all_succeed
                    Examples.argv_headless Examples.with_backup)).
    cbn. find_elem.
Defined.

(** X5. In every run of the ready handler, every write to the file system
    comes before every call to a collaborator: the rotation is over before
    the store is opened. *)
Theorem ready_rotation_precedes_pipeline (w : World) (argv : Argv) (s : St) :
  let t := events (on_ready w argv s) in
  ∀ i j a b,
    t !! i = Some a → t !! j = Some b →
    is_fs_write a = true → is_call b = true → i < j.
Proof.
  cbn zeta. rewrite on_ready_split. cbn.
  set (rot := if not_nullish (clearDb argv) then clearDatabaseFile w s
              else Build_Run [] s (Resolved tt)).
  assert (Forall (λ e, is_call e = false) (events rot)) as Hrot.
  { subst rot. destruct (not_nullish (clearDb argv));
      [apply clearDatabaseFile_calls_nothing | constructor]. }
  pose proof (proj1 (workflow_no_fs_write w (classify argv) argv (final rot)))
    as Hwf.
  rewrite Forall_lookup in Hrot, Hwf.
  intros i j a b Ha Hb Hwrite Hcall.
  destruct i as [|i]; [cbn in Ha; simplify_eq; discriminate|].
  destruct j as [|j]; [cbn in Hb; simplify_eq; discriminate|].
  cbn in Ha, Hb.
  apply lookup_app_Some in Ha as [Ha | [Hlen Ha]].
  - apply lookup_app_Some in Hb as [Hb | [Hlen Hb]].
    + rewrite (Hrot _ _ Hb) in Hcall. discriminate.
    + apply lookup_lt_Some in Ha. lia.
  - rewrite (Hwf _ _ Ha) in Hwrite. discriminate.
Qed.

Lemma ready_rotation_precedes_pipeline_witness : 4 < 5.
Proof.
  apply (ready_rotation_precedes_pipeline Examples.all_succeed
           Scenarios.argv_reset_false Examples.with_backup
           4 5 (ERename "zap.sqlite" "zap.sqlite~")
           (ECall (initDatabase "zap.sqlite"))); reflexivity.
Defined.

(** ** The life of the store handle *)

Lemma workflow_mainDatabase (w : World) (c : Command) (argv : Argv) (s : St) :
  let r := workflow w c argv s in
  (∀ d, initDatabase_settles w (sqliteFile w) = inr d →
     mainDatabase (final r) = Some d)
  ∧ (∀ e, initDatabase_settles w (sqliteFile w) = inl e →
     mainDatabase (final r) = mainDatabase s).
Proof.
  destruct c; run_branches; split; intros; simplify_eq; reflexivity.
Qed.

Lemma clearDatabaseFile_mainDatabase (w : World) (s : St) :
  mainDatabase (final (clearDatabaseFile w s)) = mainDatabase s.
Proof.
  destruct (clearDatabaseFile_quiet w s) as (pre & fs' & -> & _). reflexivity.
Qed.

Lemma on_quit_first_call (w : World) (s : St) :
  events (on_quit w s) !! 0 = Some (ECall (closeDatabase (mainDatabase s))).
Proof. run_cases; reflexivity. Qed.

(** X6. The handle the quit handler closes is the one the start-up opened.
    Once the store open has resolved with a handle, that handle is the
    current one however the rest of the start-up went, since a later
    rejection does not unregister it, and a quit closes it; when the store
    open rejected, a quit still calls the close, on whatever was current
    before, which is nothing in a fresh process. *)
Theorem quit_closes_the_opened_handle (w : World) (argv : Argv) (s : St) :
  let started := final (on_ready w argv s) in
  (∀ d, initDatabase_settles w (sqliteFile w) = inr d →
     mainDatabase started = Some d
     ∧ events (on_quit w started) !! 0 = Some (ECall (closeDatabase (Some d))))
  ∧ (∀ e, initDatabase_settles w (sqliteFile w) = inl e →
     mainDatabase started = mainDatabase s
     ∧ events (on_quit w started) !! 0
       = Some (ECall (closeDatabase (mainDatabase s)))).
Proof.
  cbn zeta. rewrite on_ready_split. cbn.
  set (rot := if not_nullish (clearDb argv) then clearDatabaseFile w s
              else Build_Run [] s (Resolved tt)).
  assert (mainDatabase (final rot) = mainDatabase s) as Hrot.
  { subst rot. destruct (not_nullish (clearDb argv));
      [apply clearDatabaseFile_mainDatabase | reflexivity]. }
  destruct (workflow_mainDatabase w (classify argv) argv (final rot))
    as [Hok Hfail].
  split.
  - intros d Hd. rewrite on_quit_first_call, (Hok d Hd). split; reflexivity.
  - intros e He. rewrite on_quit_first_call, (Hfail e He), Hrot.
    split; reflexivity.
Qed.

Lemma quit_closes_the_opened_handle_witness :
  events (on_quit Examples.schema_fails
            (final (on_ready Examples.schema_fails Examples.argv_headless
                      Examples.fresh))) !! 0
  = Some (ECall (closeDatabase (Some 7)))
  ∧ events (on_quit Scenarios.store_open_fails
              (final (on_ready Scenarios.store_open_fails Examples.argv_headless
                        Examples.fresh))) !! 0
    = Some (ECall (closeDatabase None)).
Proof.
  split.
  - apply (proj1 (quit_closes_the_opened_handle Examples.schema_fails
                    Examples.argv_headless Examples.fresh) 7).
    reflexivity.
  - apply (proj2 (quit_closes_the_opened_handle Scenarios.store_open_fails
                    Examples.argv_headless Examples.fresh) "cannot open").
    reflexivity.
Defined.

(** ** Normal mode *)

(** X7. With the UI enabled and a start-up that completes, the only thing
    shown is one window, opened on the port the server bound and with the
    UI mode given; nothing is printed, whatever show-url is, and the dock
    is left alone. *)
Theorem startNormal_with_ui (w : World) (s : St) (showUrl uiMode : JsVal) :
  let r := startNormal w true showUrl uiMode s in
  outcome r = Resolved tt →
  ∃ d bound,
    initHttpServer_settles w d (httpPort w) = inr bound
    ∧ List.filter is_ui (events r) = [EInitializeElectronUi (JNum bound) uiMode]
    ∧ window (final r) = Some (JNum bound)
    ∧ serverPort (final r) = Some bound
    ∧ stdout (events r) = [].
Proof.
  run_branches; intros Hout; try discriminate Hout.
  do 2 eexists. repeat split. eassumption.
Qed.

Lemma startNormal_with_ui_witness :
  ∃ d bound,
    initHttpServer_settles Examples.all_succeed d (JNum 0) = inr bound
    ∧ List.filter is_ui
        (events (startNormal Examples.all_succeed true (JBool true)
                   (JStr "zigbee") Examples.fresh))
      = [EInitializeElectronUi (JNum bound) (JStr "zigbee")]
    ∧ window (final (startNormal Examples.all_succeed true (JBool true)
                       (JStr "zigbee") Examples.fresh)) = Some (JNum bound)
    ∧ serverPort (final (startNormal Examples.all_succeed true (JBool true)
                           (JStr "zigbee") Examples.fresh)) = Some bound
    ∧ stdout (events (startNormal Examples.all_succeed true (JBool true)
                        (JStr "zigbee") Examples.fresh)) = [].
Proof.
  apply (startNormal_with_ui Examples.all_succeed Examples.fresh
           (JBool true) (JStr "zigbee")).
  reflexivity.
Defined.

(** X8. With the UI disabled no window is ever opened and the UI mode
    plays no part; when the start-up completes the dock is hidden exactly
    when the platform has one; and nothing is printed unless show-url is
    truthy. *)
Theorem startNormal_headless (w : World) (s : St) (showUrl uiMode : JsVal) :
  let r := startNormal w false showUrl uiMode s in
  window (final r) = window s
  ∧ r = startNormal w false showUrl JUndefined s
  ∧ (outcome r = Resolved tt →
     List.filter is_ui (events r) = if dock w then [EDockHide] else [])
  ∧ (truthy showUrl = false → stdout (events r) = []).
Proof.
  cbn zeta. split; [|split; [reflexivity|split]].
  - run_branches; reflexivity.
  - run_branches; intros Hout; first [discriminate Hout | reflexivity].
  - intros Hshow. unfold_orchestrator. unfold_promise. rewrite Hshow.
    branch; reflexivity.
Qed.

Lemma startNormal_headless_witness :
  List.filter is_ui
    (events (startNormal Scenarios.with_dock false JUndefined JUndefined Examples.fresh))
  = [EDockHide]
  ∧ stdout (events (startNormal Scenarios.with_dock false (JStr "") JUndefined
                      Examples.fresh)) = [].
Proof.
  split.
  - apply (proj1 (proj2 (proj2 (startNormal_headless Scenarios.with_dock Examples.fresh
                                  JUndefined JUndefined)))).
    reflexivity.
  - apply (proj2 (proj2 (proj2 (startNormal_headless Scenarios.with_dock Examples.fresh
                                  (JStr "") JUndefined)))).
    reflexivity.
Defined.

(** X9. Normal mode never requests termination. When a stage or the server
    start rejects with [e], the error is logged exactly once and the chain
    rejects with [e]; nothing is shown or printed, and neither the window
    nor the recorded server port has changed. *)
Theorem startNormal_failure (w : World) (s : St) (uiEnabled : bool)
    (showUrl uiMode : JsVal) :
  let r := startNormal w uiEnabled showUrl uiMode s in
  count is_quit (events r) = 0
  ∧ (∀ c e, ERejected c e ∈ events r →
       error_logs (events r) = [LError e]
       ∧ outcome r = Rejected e
       ∧ stdout (events r) = []
       ∧ List.filter is_ui (events r) = []
       ∧ window (final r) = window s
       ∧ serverPort (final r) = serverPort s)
  ∧ (count is_rejection (events r) = 0 →
       outcome r = Resolved tt ∧ error_logs (events r) = []).
Proof.
  run_branches; (split; [reflexivity|split]);
    intros; try discriminate; try (elem_cases H); repeat split; reflexivity.
Qed.

Lemma startNormal_failure_witness :
  error_logs (events (startNormal Examples.schema_fails true JUndefined
                        JUndefined Examples.fresh))
  = [LError "schema version mismatch"]
  ∧ outcome (startNormal Examples.all_succeed true JUndefined JUndefined
               Examples.fresh) = Resolved tt.
Proof.
  split.
  - apply (proj1 (proj2 (startNormal_failure Examples.schema_fails
                           Examples.fresh true JUndefined JUndefined))
             (loadSchema 7 "zap-schema.sql" "0.0.1")).
    vm_compute. find_elem.
  - apply (proj2 (proj2 (startNormal_failure Examples.all_succeed
                           Examples.fresh true JUndefined JUndefined))).
    reflexivity.
Defined.

(** ** The one-shot workflows *)

(** X10. SelfCheck, Generate and SdkGen never start the HTTP server and
    never show anything: no server start is called, no window is opened,
    the dock is not touched, and the recorded server port and window are
    as before. *)
Theorem one_shot_modes_start_no_server
    (w : World) (c : Command) (argv : Argv) (s : St) :
  let r := workflow w c argv s in
  c ≠ Normal →
  (∀ d p, ECall (initHttpServer d p) ∉ events r)
  ∧ List.filter is_ui (events r) = []
  ∧ serverPort (final r) = serverPort s
  ∧ window (final r) = window s.
Proof.
  destruct c; intros r Hc; try done; subst r.
  all: run_branches; repeat split; try reflexivity.
  all: intros d' p' Hin; elem_cases Hin.
Qed.

Lemma one_shot_modes_start_no_server_witness :
  serverPort (final (workflow Examples.all_succeed Generate
                       (Examples.argv_of [JStr "generate"]) Examples.fresh))
  = None.
Proof.
  apply (one_shot_modes_start_no_server Examples.all_succeed Generate
           (Examples.argv_of [JStr "generate"]) Examples.fresh).
  discriminate.
Defined.

(** X11. Generate and SdkGen never write to the error log and never print
    to standard output, whether they succeed or fail; their first act is
    the info line announcing the generation. *)
Theorem generation_is_silent
    (w : World) (s : St) (generationDir templateDir override : JsVal) :
  let r := applyGenerationSettings w generationDir templateDir override s in
  let r' := startSdkGeneration w generationDir templateDir override s in
  error_logs (events r) = [] ∧ stdout (events r) = []
  ∧ events r !! 0 = Some (ELogInfo (LText "Start Generation..."))
  ∧ error_logs (events r') = [] ∧ stdout (events r') = []
  ∧ events r' !! 0 = Some (ELogInfo (LText "Start SDK generation...")).
Proof.
  cbn zeta. repeat split; run_branches; reflexivity.
Qed.

(** X12. SdkGen calls the SDK generator, and only it, never the
    template-dir setter or the code generator: with the handle of the
    context the metadata load resolved with, the output directory, and the
    template directory as given, also when that is absent. *)
Theorem sdk_generation_bundle
    (w : World) (s : St) (generationDir templateDir override : JsVal) :
  let r := startSdkGeneration w generationDir templateDir override s in
  (∀ d g t, ECall (runSdkGeneration d g t) ∈ events r →
     g = generationDir ∧ t = templateDir
     ∧ ∃ d' ctx,
         loadZcl_settles w d'
           (if truthy override then override else zclPropertiesFile w)
         = inr ctx
         ∧ d = db ctx)
  ∧ (∀ x, ECall (setHandlebarTemplateDirForCli x) ∉ events r)
  ∧ (∀ x, ECall (generateCodeViaCli x) ∉ events r).
Proof.
  cbn zeta. unfold_orchestrator. unfold_promise.
  generalize (if truthy override then override else zclPropertiesFile w).
  intros q. branch; (split; [|split]).
  all: try solve [intros x Hin; elem_cases Hin].
  all: intros d' g t Hin; elem_cases Hin.
  all: repeat split; eauto.
Qed.

Lemma sdk_generation_bundle_witness :
  JStr "out" = JStr "out" ∧ JUndefined = JUndefined
  ∧ ∃ d' ctx,
      loadZcl_settles Examples.all_succeed d' (JStr "zcl.properties") = inr ctx
      ∧ 7 = db ctx.
Proof.
  apply (proj1 (sdk_generation_bundle Examples.all_succeed Examples.fresh
                  (JStr "out") JUndefined JUndefined)
           7 (JStr "out") JUndefined).
  vm_compute. find_elem.
Defined.

(** X13. SelfCheck always sets up standard output and prints its banner
    first, whatever happens next; when a stage rejects, the banner is all
    it prints. *)
Theorem selfCheck_banner (w : World) (s : St) :
  let r := startSelfCheck w s in
  events r !! 0 = Some ELogInitStdout
  ∧ events r !! 1 = Some (EConsoleLog "Starting self-check")
  ∧ (∀ c e, ERejected c e ∈ events r →
       stdout (events r) = ["Starting self-check"]).
Proof.
  run_cases; repeat split; intros c' e' Hin; elem_cases Hin; reflexivity.
Qed.

Lemma selfCheck_banner_witness :
  stdout (events (startSelfCheck Scenarios.store_open_fails Examples.fresh))
  = ["Starting self-check"].
Proof.
  apply (proj2 (proj2 (selfCheck_banner Scenarios.store_open_fails
                         Examples.fresh))
           (initDatabase "zap.sqlite") "cannot open").
  vm_compute. find_elem.
Defined.

(** ** Setting the template directory before generating *)

(** X14. A truthy template directory is first handed to the setter, and
    the generator is called only once the setter has resolved, with the
    generation directory, not with what the setter resolved with; if the
    setter rejects, the generator is not called and the rejection is the
    result. A falsy template directory is never handed to the setter: the
    generator is called at once. *)
Theorem template_dir_is_set_before_generation
    (w : World) (s : St) (generationDir templateDir : JsVal) :
  let r := setGenerationDirAndTemplateDir w generationDir templateDir s in
  let set := setHandlebarTemplateDirForCli templateDir in
  let generate := generateCodeViaCli generationDir in
  (truthy templateDir = true →
     (∀ v, setHandlebarTemplateDirForCli_settles w templateDir = inr v →
        ∃ last, events r
                = [ECall set; EResolved set; ECall generate; last])
     ∧ (∀ e, setHandlebarTemplateDirForCli_settles w templateDir = inl e →
          events r = [ECall set; ERejected set e] ∧ outcome r = Rejected e))
  ∧ (truthy templateDir = false →
       ∃ last, events r = [ECall generate; last])
  ∧ final r = s.
Proof.
  cbn zeta. unfold_orchestrator. unfold_promise.
  destruct (truthy templateDir); branch; repeat split;
    intros; simplify_eq; eauto.
Qed.

Lemma template_dir_is_set_before_generation_witness :
  (∃ last,
     events (setGenerationDirAndTemplateDir Examples.all_succeed
               (JStr "out") (JStr "templates") Examples.fresh)
     = [ECall (setHandlebarTemplateDirForCli (JStr "templates"));
        EResolved (setHandlebarTemplateDirForCli (JStr "templates"));
        ECall (generateCodeViaCli (JStr "out")); last])
  ∧ (∃ last,
       events (setGenerationDirAndTemplateDir Examples.all_succeed
                 (JStr "out") (JStr "") Examples.fresh)
       = [ECall (generateCodeViaCli (JStr "out")); last]).
Proof.
  split.
  - apply (proj1 (proj1 (template_dir_is_set_before_generation
                           Examples.all_succeed Examples.fresh
                           (JStr "out") (JStr "templates")) eq_refl)
             (JStr "templates")).
    reflexivity.
  - apply (proj1 (proj2 (template_dir_is_set_before_generation
                           Examples.all_succeed Examples.fresh
                           (JStr "out") (JStr "")))).
    reflexivity.
Defined.

(** ** What the stages are called with *)

(** X15. In every workflow the store is opened at [env.sqliteFile()], the
    schema is loaded from [env.schemaFile()] for [env.zapVersion()] into
    the handle the store open resolved with, and the templates from
    [args.genTemplateJsonFile]; SelfCheck and Normal load the metadata
    from [args.zclPropertiesFile] whatever override the command line
    carries; and Normal starts the server on [args.httpPort] with the
    handle of the context the template load resolved with. *)
Theorem stage_arguments (w : World) (c : Command) (argv : Argv) (s : St) :
  let t := events (workflow w c argv s) in
  (∀ p, ECall (initDatabase p) ∈ t → p = sqliteFile w)
  ∧ (∀ d f v, ECall (loadSchema d f v) ∈ t →
       f = schemaFile w ∧ v = zapVersion w
       ∧ initDatabase_settles w (sqliteFile w) = inr d)
  ∧ (∀ d p, ECall (loadTemplates d p) ∈ t → p = genTemplateJsonFile w)
  ∧ (∀ d p, ECall (initHttpServer d p) ∈ t →
       p = httpPort w
       ∧ ∃ d' ctx, loadTemplates_settles w d' (genTemplateJsonFile w) = inr ctx
                   ∧ d = db ctx)
  ∧ (c = SelfCheck ∨ c = Normal →
       ∀ d p, ECall (loadZcl d p) ∈ t → p = zclPropertiesFile w).
Proof.
  destruct c; cbn zeta; unfold_orchestrator; unfold_promise.
  3,4: generalize (if truthy (zclProperties argv) then zclProperties argv
                   else zclPropertiesFile w); intros q.
  all: branch; (split; [|split; [|split; [|split]]]).
  all: try solve [intros [|]; discriminate].
  all: try solve [intros p' Hin; elem_cases Hin; reflexivity].
  all: try solve [intros d' p' Hin; elem_cases Hin; reflexivity].
  all: try solve [intros d' p' Hin; elem_cases Hin; split; eauto].
  all: try solve [intros d' f' v' Hin; elem_cases Hin; repeat split; reflexivity].
  all: intros _ d' p' Hin; elem_cases Hin; reflexivity.
Qed.

Lemma stage_arguments_witness :
  JStr "zcl.properties" = zclPropertiesFile Examples.all_succeed.
Proof.
  apply (proj2 (proj2 (proj2 (proj2
           (stage_arguments Examples.all_succeed SelfCheck
              Scenarios.argv_selfcheck_override Examples.fresh))))
           (or_introl eq_refl) 7 (JStr "zcl.properties")).
  vm_compute. find_elem.
Defined.

(** ** Tokens and the URL line *)

(** X16. The command depends only on which tokens are among the positional
    arguments, not on their order or repetition. *)
Theorem classify_ignores_order (a b : Argv) :
  (∀ x, x ∈ positional a ↔ x ∈ positional b) →
  classify a = classify b.
Proof.
  intros Hsame. unfold classify, includes.
  repeat case_bool_decide; try reflexivity; exfalso;
    repeat match goal with
           | H : _ ∈ positional a |- _ => apply Hsame in H
           | H : ¬ _ ∈ positional a |- _ => rewrite Hsame in H
           end; contradiction.
Qed.

Lemma classify_ignores_order_witness :
  classify (Examples.argv_of [JStr "generate"; JStr "sdkGen"])
  = classify (Examples.argv_of [JStr "sdkGen"; JStr "generate"; JStr "sdkGen"]).
Proof.
  apply classify_ignores_order. intros x. cbn.
  rewrite !elem_of_cons, !elem_of_nil. tauto.
Defined.

Lemma append_cancel_l (p a b : string) : p +:+ a = p +:+ b → a = b.
Proof.
  induction p as [|c p IH]; cbn; [done|]. intros [= H]. exact (IH H).
Qed.

Lemma length_append (a b : string) :
  String.length (a +:+ b) = String.length a + String.length b.
Proof.
  induction a as [|c a IH]; [reflexivity|]. simpl. rewrite IH. reflexivity.
Qed.

Lemma append_cancel_r (a b c : string) : a +:+ c = b +:+ c → a = b.
Proof.
  revert b. induction a as [|x a IH]; intros [|y b] H; cbn in H.
  - reflexivity.
  - apply (f_equal String.length) in H.
    rewrite !length_append in H. simpl in H. lia.
  - apply (f_equal String.length) in H.
    rewrite !length_append in H. simpl in H. lia.
  - injection H as -> H. f_equal. exact (IH b H).
Qed.

Lemma to_int_proper (z : Z) : Z.to_int z ≠ Decimal.Pos Decimal.Nil
                              ∧ Z.to_int z ≠ Decimal.Neg Decimal.Nil.
Proof.
  destruct z as [|p|p]; cbn; split; try discriminate.
  - intros [= H]. exact (DecimalPos.Unsigned.to_uint_nonnil p H).
  - intros [= H]. exact (DecimalPos.Unsigned.to_uint_nonnil p H).
Qed.

(** X17. The URL line tells the port: two integer ports that print the
    same line are the same port. *)
Theorem url_line_determines_port (p q : Z) :
  url_line (JNum p) = url_line (JNum q) → p = q.
Proof.
  unfold url_line. intros H.
  apply append_cancel_l, append_cancel_r in H. cbn in H.
  apply (f_equal NilZero.int_of_string) in H.
  rewrite !NilZero.isi in H by apply to_int_proper.
  injection H as H.
  rewrite <- (DecimalZ.of_to p), <- (DecimalZ.of_to q), H. reflexivity.
Qed.

Lemma url_line_determines_port_witness : 51234%Z = 51234%Z.
Proof.
  apply url_line_determines_port. reflexivity.
Defined.
